(** * The Lennard-Jones notebook, embedded and verified

    A shallow embedding of [interaction_between_two_atoms/lennard-jones-equation.ipynb]:
    the three functions [convert_to_j], [lennard_jones] and [compare_values], the
    constants of the first cell and the cells that call them.

    Python's [float] is IEEE 754 binary64, which is what Rocq's primitive [float]
    is, so the arithmetic of the notebook ([*], [/], [-], [<]) is embedded as the
    primitive operations.  The built-ins the notebook calls ([pow], [round] and
    the [str] of an f-string) are modelled in [Module Py], after CPython 3.11. *)

From Stdlib Require Import ZArith List Bool Lia String Ascii Floats.
From Stdlib Require Import DecimalString DecimalZ Permutation.
Import ListNotations.

Set Warnings "-inexact-float".

(** ** Exceptions and fallible results *)

Inductive exn : Set :=
  | ZeroDivisionError
  | OverflowError.

Inductive result (A : Type) : Type :=
  | Ok (a : A)
  | Raise (e : exn).

Arguments Ok {A} a.
Arguments Raise {A} e.

Definition bind {A B : Type} (r : result A) (k : A -> result B) : result B :=
  match r with
  | Ok a => k a
  | Raise e => Raise e
  end.

Notation "x <- r ;; k" := (bind r (fun x => k))
  (at level 61, r at next level, right associativity).

(** A Python number: an [int] of any size or a [float]. *)
Inductive num : Set :=
  | Int (z : Z)
  | Float (f : float).

(** ** The Python built-ins the notebook uses *)

Module Py.

(** *** Exact values and correct rounding *)

(** The magnitude of the finite double with mantissa [m] and exponent [e] is
    [m * 2^e]; as a fraction of two positive integers: *)
Definition ratio (m : positive) (e : Z) : Z * Z :=
  if (0 <=? e)%Z then (Z.pos m * 2 ^ e, 1)%Z else (Z.pos m, 2 ^ (- e))%Z.

(** The double nearest to [(-1)^s * p / q] (ties to even), for [0 <= p] and
    [0 < q]; an infinity when the fraction is beyond the largest double. *)
Definition round_ratio (s : bool) (p q : Z) : float :=
  match p with
  | Z0 => if s then neg_zero else zero
  | _ =>
      let '(mz, ez, lz) := SFdiv_core_binary prec emax p 0 q 0 in
      SF2Prim (binary_round_aux prec emax s mz ez lz)
  end.

(** [strtod]: the double nearest to the decimal [(-1)^s * c * 10^k]. *)
Definition strtod (s : bool) (c k : Z) : float :=
  if (0 <=? k)%Z then round_ratio s (c * 10 ^ k) 1
  else round_ratio s c (10 ^ (- k)).

(** *** int to float *)

(** [float(z)]: the nearest double, [OverflowError] when [z] is too large. *)
Definition int_to_float (z : Z) : result float :=
  let f := round_ratio (z <? 0)%Z (Z.abs z) 1 in
  if is_infinity f then Raise OverflowError else Ok f.

(** *** Arithmetic *)

(** [a / b] on floats raises on a zero divisor (of either sign). *)
Definition float_truediv (a b : float) : result float :=
  if (b =? 0)%float then Raise ZeroDivisionError else Ok (a / b)%float.

(** [a * b] with a float on the left: an int on the right is converted. *)
Definition float_mul_num (a : float) (b : num) : result float :=
  match b with
  | Float g => Ok (a * g)%float
  | Int y => g <- int_to_float y ;; Ok (a * g)%float
  end.

Definition num_mul (a b : num) : result num :=
  match a, b with
  | Int x, Int y => Ok (Int (x * y))
  | Int x, Float g => f <- int_to_float x ;; Ok (Float (f * g))
  | Float f, _ => r <- float_mul_num f b ;; Ok (Float r)
  end.

(** *** Comparison *)

(** [v < z] for a float and an int compares the exact values; a NaN is not
    less than anything. *)
Definition float_lt_int (v : float) (z : Z) : bool :=
  match Prim2SF v with
  | S754_nan => false
  | S754_infinity s => s
  | S754_zero _ => (0 <? z)%Z
  | S754_finite s m e =>
      let '(p, q) := ratio m e in
      ((if s then - p else p) <? z * q)%Z
  end.

Definition float_lt_num (v : float) (s : num) : bool :=
  match s with
  | Int z => float_lt_int v z
  | Float f => (v <? f)%float
  end.

(** *** pow *)

(** The C library's [pow(iv, iw)] for a finite [iv > 0] and an integer [iw]:
    the exact power, correctly rounded.  (C does not promise correct rounding;
    on the arguments of the notebook it is what the recorded outputs show, see
    [cell5_matches_recorded_output].) *)
Definition libm_pow (iv : float) (iw : Z) : float :=
  match Prim2SF iv with
  | S754_finite _ m e =>
      let '(p, q) := ratio m e in
      let n := Z.abs iw in
      if (0 <=? iw)%Z then round_ratio false (p ^ n) (q ^ n)
      else round_ratio false (q ^ n) (p ^ n)
  | _ => nan
  end.

(** [float_pow] of CPython's floatobject.c, for an exponent that is an [int]
    (converted to a double without error: every exponent of the notebook is
    a small literal). *)
Definition float_pow (iv : float) (iw : Z) : result float :=
  if (iw =? 0)%Z then Ok 1%float
  else if is_nan iv then Ok iv
  else if is_infinity iv then
    if (0 <? iw)%Z then Ok (if Z.odd iw then iv else abs iv)
    else Ok (if Z.odd iw then (if get_sign iv then neg_zero else zero) else zero)
  else if (iv =? 0)%float then
    if (iw <? 0)%Z then Raise ZeroDivisionError
    else Ok (if Z.odd iw then iv else zero)
  else
    let negate_result := (iv <? 0)%float && Z.odd iw in
    let iv := if (iv <? 0)%float then (- iv)%float else iv in
    if (iv =? 1)%float then Ok (if negate_result then (-1)%float else 1%float)
    else
      let ix := libm_pow iv iw in
      if is_infinity ix then Raise OverflowError
      else Ok (if negate_result then (- ix)%float else ix).

(** The built-in [pow(b, e)] on two ints: an int for [e >= 0], else the float
    power of the two converted to floats. *)
Definition int_pow (b e : Z) : result num :=
  if (0 <=? e)%Z then Ok (Int (b ^ e))
  else
    fb <- int_to_float b ;;
    r <- float_pow fb e ;;
    Ok (Float r).

(** *** round *)

(** The integer nearest to [p / q], ties to the even one ([0 <= p], [0 < q]). *)
Definition div_half_even (p q : Z) : Z :=
  let lo := (p / q)%Z in
  match (2 * (p mod q) ?= q)%Z with
  | Lt => lo
  | Gt => (lo + 1)%Z
  | Eq => if Z.even lo then lo else (lo + 1)%Z
  end.

(** [round(x, ndigits)] on a float: the exact value of [x] is rounded to
    [ndigits] decimals (ties to even) and the decimal is read back as a double
    (CPython's [double_round], through dtoa and strtod). *)
Definition float_round (x : float) (ndigits : Z) : result float :=
  match Prim2SF x with
  | S754_finite s m e =>
      if (323 <? ndigits)%Z then Ok x
      else if (ndigits <? -308)%Z then Ok (0 * x)%float
      else
        let '(p, q) := ratio m e in
        let n :=
          if (0 <=? ndigits)%Z then div_half_even (p * 10 ^ ndigits) q
          else div_half_even p (q * 10 ^ (- ndigits)) in
        let r := strtod s n (- ndigits) in
        if is_infinity r then Raise OverflowError else Ok r
  | _ => Ok x
  end.

(** [round(z, ndigits)] on an int: [z] itself for [ndigits >= 0], else the
    nearest multiple of [10^(-ndigits)], ties to the even multiple. *)
Definition int_round (z : Z) (ndigits : Z) : Z :=
  if (0 <=? ndigits)%Z then z
  else
    let pw := (10 ^ (- ndigits))%Z in
    let n := div_half_even (Z.abs z) pw in
    (Z.sgn z * n * pw)%Z.

Definition num_round (x : num) (ndigits : Z) : result num :=
  match x with
  | Int z => Ok (Int (int_round z ndigits))
  | Float f => r <- float_round f ndigits ;; Ok (Float r)
  end.

(** *** str *)

(** The decimal digits of a non-negative integer. *)
Definition digits_of (c : Z) : string :=
  NilZero.string_of_uint (N.to_uint (Z.to_N c)).

Fixpoint zeros (n : nat) : string :=
  match n with
  | O => EmptyString
  | S n' => String "0" (zeros n')
  end.

(** How many decimal digits [n >= 1] has. *)
Fixpoint ndigits10 (fuel : nat) (n : Z) : Z :=
  match fuel with
  | O => 1
  | S fuel' => if (n <? 10)%Z then 1 else (1 + ndigits10 fuel' (n / 10))%Z
  end.

(** The least [j >= 1] with [q <= p * 10^j], for [0 < p < q]. *)
Fixpoint lead_zeros (fuel : nat) (p q : Z) : Z :=
  match fuel with
  | O => 1
  | S fuel' =>
      if (q <=? p * 10)%Z then 1 else (1 + lead_zeros fuel' (p * 10) q)%Z
  end.

(** The position of the decimal point of [p / q > 0]: the [d] with
    [10^(d-1) <= p / q < 10^d]. *)
Definition decpt_of (p q : Z) : Z :=
  if (q <=? p)%Z then ndigits10 (Z.to_nat (Z.log2 p)) (p / q)
  else (1 - lead_zeros (Z.to_nat (Z.log2 q)) p q)%Z.

(** dtoa, mode 0: the shortest decimal [c * 10^k] that [strtod] reads back as
    [x = p / q > 0], the nearest to [x] when several of that length do.  [n] is
    the number of digits tried, from 1 to 17. *)
Fixpoint shortest (fuel : nat) (n : Z) (x : float) (p q d : Z) : Z * Z :=
  let k := (d - n)%Z in
  let '(pn, qn) := if (0 <=? k)%Z then (p, q * 10 ^ k)%Z else (p * 10 ^ (- k), q)%Z in
  let lo := (pn / qn)%Z in
  let near := div_half_even pn qn in
  let far := if (near =? lo)%Z then (lo + 1)%Z else lo in
  match fuel with
  | O => (near, k)
  | S fuel' =>
      if (strtod false near k =? x)%float then (near, k)
      else if (strtod false far k =? x)%float then (far, k)
      else shortest fuel' (n + 1) x p q d
  end.

Fixpoint strip_zeros (fuel : nat) (c k : Z) : Z * Z :=
  match fuel with
  | O => (c, k)
  | S fuel' =>
      if (c mod 10 =? 0)%Z then strip_zeros fuel' (c / 10) (k + 1) else (c, k)
  end.

(** The exponent of a float's repr: a sign and at least two digits. *)
Definition exp_str (e : Z) : string :=
  let a := Z.abs e in
  ((if (e <? 0)%Z then "-" else "+")
   ++ (if (a <? 10)%Z then "0" else "") ++ digits_of a)%string.

(** The digits [ds], with the decimal point after the first [d] of them, laid
    out as [repr] does (format code 'r' of [format_float_short]). *)
Definition layout (ds : string) (d : Z) : string :=
  let len := Z.of_nat (String.length ds) in
  if ((d <=? -4) || (16 <? d))%Z then
    (substring 0 1 ds
     ++ (if (1 <? len)%Z then "." ++ substring 1 (String.length ds - 1) ds else "")
     ++ "e" ++ exp_str (d - 1))%string
  else if (d <=? 0)%Z then
    ("0." ++ zeros (Z.to_nat (- d)) ++ ds)%string
  else if (d <? len)%Z then
    (substring 0 (Z.to_nat d) ds ++ "."
     ++ substring (Z.to_nat d) (String.length ds - Z.to_nat d) ds)%string
  else
    (ds ++ zeros (Z.to_nat (d - len)) ++ ".0")%string.

(** [repr(x)], which is also [str(x)] and what an f-string field prints. *)
Definition float_repr (x : float) : string :=
  match Prim2SF x with
  | S754_nan => "nan"
  | S754_infinity s => if s then "-inf" else "inf"
  | S754_zero s => if s then "-0.0" else "0.0"
  | S754_finite s m e =>
      let '(p, q) := ratio m e in
      let '(c0, k0) := shortest 16 1 (abs x) p q (decpt_of p q) in
      let '(c, k) := strip_zeros 17 c0 k0 in
      let ds := digits_of c in
      ((if s then "-" else "")
       ++ layout ds (Z.of_nat (String.length ds) + k))%string
  end.

Definition num_str (x : num) : string :=
  match x with
  | Int z => NilZero.string_of_int (Z.to_int z)
  | Float f => float_repr f
  end.

End Py.

(** ** The notebook *)

Module Notebook.
Import Py.

(** Cell 1: the constants. *)
Definition epsilon : float := 0.0103.
Definition sigma : float := 3.40.
Definition distance1 : float := 3.0.
Definition distance2 : float := 3.4.
Definition distance3 : float := 3.8.
Definition distance4 : float := 4.2.
Definition distance5 : float := 4.6.
Definition distance6 : float := 5.0.

(** Cell 2: [return value * 1.602176634 * pow(10, -19)]. *)
Definition convert_to_j (value : float) : result float :=
  p <- int_pow 10 (-19) ;;
  float_mul_num (value * 1.602176634) p.

(** Cell 4:
    [return (4 * epsilon) * (pow((sigma / distance), 12) - pow((sigma / distance), 6))]. *)
Definition lennard_jones (epsilon sigma distance : float) : result float :=
  q12 <- float_truediv sigma distance ;;
  p12 <- float_pow q12 12 ;;
  q6 <- float_truediv sigma distance ;;
  p6 <- float_pow q6 6 ;;
  Ok ((4 * epsilon) * (p12 - p6))%float.

(** Cell 6.  The state of the loop is the pair [(sol, i)]; [sol] starts as the
    int [0] and is a float of the list afterwards.
<<
    sol = 0
    i = 0
    for n in range(len(values)):
        if values[n] < sol:
            sol = values[n]
            i = n
    return sol, i
>> *)
Definition compare_step (values : list float) (st : num * nat) (n : nat)
  : num * nat :=
  match nth_error values n with
  | Some v => if float_lt_num v (fst st) then (Float v, n) else st
  | None => st
  end.

Definition compare_values (values : list float) : num * nat :=
  fold_left (compare_step values) (seq 0 (List.length values)) (Int 0, 0).

(** Cell 3: [epsilon = convert_to_j(epsilon)]. *)
Definition cell3 : result float := convert_to_j epsilon.

(** Cell 5: the six potentials [v1, ..., v6]. *)
Definition cell5 : result (list float) :=
  epsilon <- cell3 ;;
  v1 <- lennard_jones epsilon sigma distance1 ;;
  v2 <- lennard_jones epsilon sigma distance2 ;;
  v3 <- lennard_jones epsilon sigma distance3 ;;
  v4 <- lennard_jones epsilon sigma distance4 ;;
  v5 <- lennard_jones epsilon sigma distance5 ;;
  v6 <- lennard_jones epsilon sigma distance6 ;;
  Ok [v1; v2; v3; v4; v5; v6].

(** Cell 7: [lowest, index = compare_values([v1, v2, v3, v4, v5, v6])]. *)
Definition cell7 : result (num * nat) :=
  vs <- cell5 ;;
  Ok (compare_values vs).

(** Cell 8, on the [lowest] of cell 7:
    [lowest = round(lowest * pow(10, 21), 2)] and the line
    [print(f"{lowest}e-21 J")] writes. *)
Definition scale_and_round (lowest : num) : result num :=
  p <- int_pow 10 21 ;;
  x <- num_mul lowest p ;;
  num_round x 2.

Definition output_line (lowest : num) : string :=
  (num_str lowest ++ "e-21 J")%string.

Definition cell8 : result string :=
  li <- cell7 ;;
  lowest <- scale_and_round (fst li) ;;
  Ok (output_line lowest).

(** The values the notebook records as the output of cell 5. *)
Definition recorded_values : list float :=
  [1.5653523415738785e-20; 0.0; -1.6491152810326125e-21;
   -1.3349087048372307e-21; -9.00808599371665e-22; -5.880980609909882e-22]%float.

End Notebook.

(** * Definitions used in the statements and proofs *)

Import Py Notebook.

(** The loop as one pass over the list; [n] is the index of the head. *)
Fixpoint scan (l : list float) (n : nat) (st : num * nat) : num * nat :=
  match l with
  | [] => st
  | v :: l' =>
      scan l' (S n) (if float_lt_num v (fst st) then (Float v, n) else st)
  end.

(** What holds of the state [(sol, i)] after the loop has run over [values]:
    either nothing was below zero and the state is the initial one, or [sol]
    is a negative element of the list at index [i], nothing in the list is
    below it and nothing before index [i] equals it. *)
Definition loop_inv (values : list float) (st : num * nat) : Prop :=
  (st = (Int 0, 0%nat) /\ Forall (fun w => (w <? 0)%float = false) values)
  \/ exists f : float,
       fst st = Float f
       /\ (f <? 0)%float = true
       /\ nth_error values (snd st) = Some f
       /\ Forall (fun w => (w <? f)%float = false) values
       /\ Forall (fun w => (w =? f)%float = false) (firstn (snd st) values).

(** The six distances of cell 1, in the order of cell 5. *)
Definition distances : list float :=
  [distance1; distance2; distance3; distance4; distance5; distance6].

(** An evaluation of cell 5 with [p] in the place of [pow(10, -19)]. *)
Definition cell5_with (p d : float) : result float :=
  lennard_jones (epsilon * 1.602176634 * p) sigma d.

(** Cells 7 and 8 on any list of potentials: the line that is printed. *)
Definition report (values : list float) : result string :=
  lowest <- scale_and_round (fst (compare_values values)) ;;
  Ok (output_line lowest).

(** The negation of a result that is a float. *)
Definition result_opp (r : result float) : result float :=
  match r with
  | Ok v => Ok (- v)%float
  | Raise e => Raise e
  end.

(** A state of the loop of [compare_values] with its index moved by [n],
    when the index is that of an element. *)
Definition shift_index (n : nat) (st : num * nat) : num * nat :=
  match fst st with
  | Int _ => st
  | Float _ => (fst st, (snd st + n)%nat)
  end.

(** Two results are told apart by a test on the float they carry. *)
Definition carries (t : float -> bool) (r : result float) : bool :=
  match r with
  | Ok v => t v
  | Raise _ => false
  end.

(** * Properties *)

(** ** The built-ins on known values *)

Example pow_10_minus_19 : int_pow 10 (-19) = Ok (Float 1e-19).
Proof. vm_compute. reflexivity. Qed.

Example pow_10_21 : int_pow 10 21 = Ok (Int 1000000000000000000000).
Proof. reflexivity. Qed.

Example pow_special_cases :
  [float_pow 0 12; float_pow 0 (-1); float_pow 1e200 12; float_pow 1e-200 12;
   float_pow (-2) 3; float_pow 2 (-3); float_pow nan 0]
  = [Ok 0%float; Raise ZeroDivisionError; Raise OverflowError; Ok 0%float;
     Ok (-8)%float; Ok 0.125%float; Ok 1%float].
Proof. vm_compute. reflexivity. Qed.

Example truediv_by_zero : float_truediv 3.40 0 = Raise ZeroDivisionError.
Proof. reflexivity. Qed.

Example strtod_reads_the_literals :
  [strtod false 103 (-4); strtod false 34 (-1); strtod false 1602176634 (-9);
   strtod true 16491152810326125 (-37)]
  = [0.0103; 3.4; 1.602176634; -1.6491152810326125e-21]%float.
Proof. vm_compute. reflexivity. Qed.

Example round_ties_to_even :
  map (fun x => float_round x 0) [0.5; 1.5; 2.5]%float
  = map Ok [0; 2; 2]%float.
Proof. vm_compute. reflexivity. Qed.

Example round_uses_the_exact_value : float_round 2.675 2 = Ok 2.67%float.
Proof. vm_compute. reflexivity. Qed.

Example repr_layouts :
  map float_repr
      [0.1; 0.1 + 0.2; 100; 1e16; 1e22; 0.0001; 0.00001; 5e-324;
       1.7976931348623157e308; -1.65; neg_zero; infinity]%float
  = ["0.1"; "0.30000000000000004"; "100.0"; "1e+16"; "1e+22"; "0.0001";
     "1e-05"; "5e-324"; "1.7976931348623157e+308"; "-1.65"; "-0.0";
     "inf"]%string.
Proof. vm_compute. reflexivity. Qed.

(** ** The cells on the notebook's constants *)

Example cell3_value : cell3 = Ok 1.65024193302e-21%float.
Proof. vm_compute. reflexivity. Qed.

Example cell5_matches_recorded_output : cell5 = Ok recorded_values.
Proof. vm_compute. reflexivity. Qed.

(** The text of the recorded output of cell 5 is the repr of these values. *)
Example recorded_values_repr :
  map float_repr recorded_values
  = ["1.5653523415738785e-20"; "0.0"; "-1.6491152810326125e-21";
     "-1.3349087048372307e-21"; "-9.00808599371665e-22";
     "-5.880980609909882e-22"]%string.
Proof. vm_compute. reflexivity. Qed.

(** The recorded output fixes the value of [pow(10, -19)]: with either
    neighbour of [1e-19] in its place, cell 5 gives other values. *)
Example cell5_with_other_powers :
  map (cell5_with (next_up 1e-19)) distances
  = map Ok [1.5653523415738788e-20; 0; -1.6491152810326126e-21;
            -1.3349087048372309e-21; -9.0080859937166519e-22;
            -5.8809806099098832e-22]%float
  /\ map (cell5_with (next_down 1e-19)) distances
     = map Ok [1.5653523415738785e-20; 0; -1.6491152810326123e-21;
               -1.3349087048372307e-21; -9.00808599371665e-22;
               -5.8809806099098814e-22]%float.
Proof. split; vm_compute; reflexivity. Qed.

Example cell7_value : cell7 = Ok (Float (-1.6491152810326125e-21), 2%nat).
Proof. vm_compute. reflexivity. Qed.

Example cell8_prints : cell8 = Ok "-1.65e-21 J"%string.
Proof. vm_compute. reflexivity. Qed.

(** ** The order of binary64, from its specification *)

Section SpecOrder.

Ltac cmp_cases :=
  repeat match goal with
  | |- context [Pos.compare_cont Eq ?a ?b] =>
      change (Pos.compare_cont Eq a b) with (Pos.compare a b);
      destruct (Pos.compare_spec a b)
  | H : context [Pos.compare_cont Eq ?a ?b] |- _ =>
      change (Pos.compare_cont Eq a b) with (Pos.compare a b) in H;
      destruct (Pos.compare_spec a b)
  | |- context [Z.compare ?a ?b] => destruct (Z.compare_spec a b)
  | H : context [Z.compare ?a ?b] |- _ => destruct (Z.compare_spec a b)
  end;
  simpl in *; subst; try discriminate; try reflexivity; try lia.

Ltac by_cases x := destruct x as [[]|[]| |[] ? ?]; simpl in *;
  try discriminate; try reflexivity.

Lemma SFltb_irrefl (x : spec_float) : SFltb x x = false.
Proof.
  unfold SFltb, SFcompare. by_cases x; cmp_cases.
Qed.

Lemma SFltb_trans (x y z : spec_float) :
  SFltb x y = true -> SFltb y z = true -> SFltb x z = true.
Proof.
  unfold SFltb, SFcompare.
  by_cases x; by_cases y; by_cases z; intros; cmp_cases.
Qed.

Lemma SFeqb_ltb (x y z : spec_float) :
  SFeqb x y = true -> SFltb y z = true -> SFltb x z = true.
Proof.
  unfold SFltb, SFeqb, SFcompare.
  by_cases x; by_cases y; by_cases z; intros; cmp_cases.
Qed.

Lemma SFltb_asym (x y : spec_float) :
  SFltb x y = true -> SFltb y x = false.
Proof.
  unfold SFltb, SFcompare.
  by_cases x; by_cases y; intros; cmp_cases.
Qed.

Lemma SFltb_neq (x y : spec_float) :
  SFltb x y = true -> SFeqb y x = false.
Proof.
  unfold SFltb, SFeqb, SFcompare.
  by_cases x; by_cases y; intros; cmp_cases.
Qed.

Lemma SFleb_total (x y : spec_float) :
  x <> S754_nan -> y <> S754_nan -> SFltb x y = false -> SFleb y x = true.
Proof.
  unfold SFltb, SFleb, SFcompare.
  by_cases x; by_cases y; intros; try congruence; cmp_cases.
Qed.

Lemma SFltb_leb (x y : spec_float) : SFltb x y = true -> SFleb x y = true.
Proof.
  unfold SFltb, SFleb. destruct (SFcompare x y) as [[]|]; congruence.
Qed.

End SpecOrder.

(** ** The order of the primitive floats *)

Section FloatOrder.

Local Open Scope float_scope.

Lemma float_ltb_irrefl (x : float) : (x <? x) = false.
Proof. rewrite ltb_spec. apply SFltb_irrefl. Qed.

Lemma float_ltb_trans (x y z : float) :
  (x <? y) = true -> (y <? z) = true -> (x <? z) = true.
Proof. rewrite !ltb_spec. apply SFltb_trans. Qed.

Lemma float_eqb_ltb (x y z : float) :
  (x =? y) = true -> (y <? z) = true -> (x <? z) = true.
Proof. rewrite eqb_spec, !ltb_spec. apply SFeqb_ltb. Qed.

Lemma float_ltb_asym (x y : float) : (x <? y) = true -> (y <? x) = false.
Proof. rewrite !ltb_spec. apply SFltb_asym. Qed.

Lemma float_ltb_neq (x y : float) : (x <? y) = true -> (y =? x) = false.
Proof. rewrite eqb_spec, ltb_spec. apply SFltb_neq. Qed.

Lemma float_ltb_leb (x y : float) : (x <? y) = true -> (x <=? y) = true.
Proof. rewrite ltb_spec, leb_spec. apply SFltb_leb. Qed.

Lemma is_nan_spec (x : float) : is_nan x = false -> Prim2SF x <> S754_nan.
Proof.
  unfold is_nan. rewrite eqb_spec. intros H E. rewrite E in H. discriminate.
Qed.

Lemma float_leb_total (x y : float) :
  is_nan x = false -> is_nan y = false -> (x <? y) = false -> (y <=? x) = true.
Proof.
  intros Hx Hy. rewrite ltb_spec, leb_spec.
  apply SFleb_total; now apply is_nan_spec.
Qed.

Lemma float_ltb_not_nan (x y : float) : (x <? y) = true -> is_nan x = false.
Proof.
  unfold is_nan. rewrite ltb_spec, eqb_spec. unfold SFltb, SFeqb, SFcompare.
  destruct (Prim2SF x) as [[]|[]| |[] m e]; try discriminate; intros _;
    try reflexivity; simpl; rewrite Z.compare_refl;
    change (Pos.compare_cont Eq m m) with (Pos.compare m m);
    now rewrite Pos.compare_refl.
Qed.

Lemma ratio_pos (m : positive) (e : Z) :
  (0 < fst (Py.ratio m e) /\ 0 < snd (Py.ratio m e))%Z.
Proof.
  unfold Py.ratio. destruct (0 <=? e)%Z eqn:E; cbv [fst snd].
  - apply Z.leb_le in E. split; [|lia].
    apply Z.mul_pos_pos; [lia|]. apply Z.pow_pos_nonneg; lia.
  - apply Z.leb_gt in E. split; [lia|]. apply Z.pow_pos_nonneg; lia.
Qed.

(** Against the int [0], the exact comparison is the float comparison. *)
Lemma float_lt_int_zero (v : float) : Py.float_lt_int v 0 = (v <? 0).
Proof.
  rewrite ltb_spec. unfold Py.float_lt_int.
  replace (Prim2SF 0) with (S754_zero false) by reflexivity.
  destruct (Prim2SF v) as [s|s| |s m e]; try reflexivity.
  - now destruct s.
  - destruct (ratio_pos m e) as [Hp Hq].
    destruct (Py.ratio m e) as [p q]; simpl in *.
    destruct s; simpl; [apply Z.ltb_lt|apply Z.ltb_ge]; lia.
Qed.

End FloatOrder.

(** ** The loop of [compare_values] *)

Section CompareValues.

Lemma fold_compare_step (pre l : list float) (st : num * nat) :
  fold_left (compare_step (pre ++ l)) (seq (List.length pre) (List.length l)) st
  = scan l (List.length pre) st.
Proof.
  revert pre st. induction l as [|v l IH]; intros pre st; [reflexivity|].
  cbn [List.length seq fold_left scan].
  assert (E : compare_step (pre ++ v :: l) st (List.length pre)
              = if float_lt_num v (fst st) then (Float v, List.length pre) else st).
  { unfold compare_step.
    now rewrite nth_error_app2, Nat.sub_diag by apply Nat.le_refl. }
  rewrite E.
  specialize (IH (pre ++ [v])).
  rewrite <- app_assoc, length_app, Nat.add_1_r in IH. apply IH.
Qed.

Lemma compare_values_scan (values : list float) :
  compare_values values = scan values 0%nat (Int 0, 0%nat).
Proof. exact (fold_compare_step [] values (Int 0, 0%nat)). Qed.

Lemma scan_snoc (l : list float) (v : float) (n : nat) (st : num * nat) :
  scan (l ++ [v]) n st
  = let st' := scan l n st in
    if float_lt_num v (fst st') then (Float v, n + List.length l) else st'.
Proof.
  revert n st. induction l as [|w l IH]; intros n st; cbn [app scan List.length].
  - now rewrite Nat.add_0_r.
  - rewrite IH. cbv zeta. now rewrite Nat.add_succ_r.
Qed.

Lemma compare_values_snoc (values : list float) (v : float) :
  compare_values (values ++ [v])
  = if float_lt_num v (fst (compare_values values))
    then (Float v, List.length values) else compare_values values.
Proof. rewrite !compare_values_scan, scan_snoc. reflexivity. Qed.

Lemma new_minimum (values : list float) (v b : float) :
  (v <? b)%float = true ->
  Forall (fun w => (w <? b)%float = false) values ->
  Forall (fun w => (w <? v)%float = false) (values ++ [v])
  /\ Forall (fun w => (w =? v)%float = false) values.
Proof.
  intros Hv Hb. split.
  - apply Forall_app. split.
    + eapply Forall_impl; [|exact Hb]. cbv beta. intros w Hw.
      destruct (w <? v)%float eqn:E; [|reflexivity].
      now rewrite (float_ltb_trans _ _ _ E Hv) in Hw.
    + constructor; [apply float_ltb_irrefl|constructor].
  - eapply Forall_impl; [|exact Hb]. cbv beta. intros w Hw.
    destruct (w =? v)%float eqn:E; [|reflexivity].
    now rewrite (float_eqb_ltb _ _ _ E Hv) in Hw.
Qed.

Lemma compare_values_inv (values : list float) :
  loop_inv values (compare_values values).
Proof.
  induction values as [|v values IH] using rev_ind.
  - left. split; [reflexivity|constructor].
  - rewrite compare_values_snoc.
    destruct IH as [[E H0]|(f & E & Hneg & Hi & Hlow & Hfirst)].
    + rewrite E. cbn [fst float_lt_num]. rewrite float_lt_int_zero.
      destruct (v <? 0)%float eqn:Hv.
      * right. exists v. cbn [fst snd].
        destruct (new_minimum values v 0 Hv H0) as [Hl Hf].
        repeat split; trivial.
        -- now rewrite nth_error_app2, Nat.sub_diag by apply Nat.le_refl.
        -- now rewrite firstn_app, Nat.sub_diag, firstn_all, app_nil_r.
      * left. split; [reflexivity|].
        apply Forall_app. split; [exact H0|]. now repeat constructor.
    + rewrite E. cbn [float_lt_num].
      destruct (v <? f)%float eqn:Hv.
      * right. exists v. cbn [fst snd].
        destruct (new_minimum values v f Hv Hlow) as [Hl Hf].
        repeat split; trivial.
        -- exact (float_ltb_trans _ _ _ Hv Hneg).
        -- now rewrite nth_error_app2, Nat.sub_diag by apply Nat.le_refl.
        -- now rewrite firstn_app, Nat.sub_diag, firstn_all, app_nil_r.
      * right. exists f.
        assert (Hlt : (snd (compare_values values) < List.length values)%nat).
        { apply nth_error_Some. now rewrite Hi. }
        repeat split; trivial.
        -- now rewrite nth_error_app1.
        -- apply Forall_app. split; [exact Hlow|]. now repeat constructor.
        -- rewrite firstn_app.
           replace (snd (compare_values values) - List.length values)%nat
             with 0%nat by lia.
           now rewrite app_nil_r.
Qed.

End CompareValues.

(** * The claims about [compare_values] *)

(** C2: on a list whose elements are all strictly positive, [compare_values]
    returns the pair [(0, 0)]; the returned [0] is the initial candidate and
    not the minimum of the list: no element of the list equals it. *)
Theorem compare_values_all_positive (values : list float) :
  Forall (fun v => (0 <? v)%float = true) values ->
  compare_values values = (Int 0, 0%nat)
  /\ Forall (fun v => (v =? 0)%float = false) values.
Proof.
  intros Hpos. split.
  - destruct (compare_values_inv values)
      as [[E _]|(f & _ & Hneg & Hi & _)]; [exact E|].
    apply nth_error_In in Hi.
    rewrite Forall_forall in Hpos. apply Hpos in Hi.
    now rewrite (float_ltb_asym _ _ Hi) in Hneg.
  - eapply Forall_impl; [|exact Hpos]. cbv beta. intros v Hv.
    exact (float_ltb_neq _ _ Hv).
Qed.

Lemma compare_values_all_positive_witness :
  compare_values [1.5653523415738785e-20; 2.5]%float = (Int 0, 0%nat)
  /\ Forall (fun v => (v =? 0)%float = false) [1.5653523415738785e-20; 2.5]%float.
Proof.
  apply (compare_values_all_positive [1.5653523415738785e-20; 2.5]%float).
  repeat constructor.
Defined.

(** C3, at the input [[2.0, 1.0]]: the smallest value is [1.0], at index 1,
    and [compare_values] returns [(0, 0)], a value that is not in the list. *)
Theorem compare_values_misses_positive_minimum :
  compare_values [2.0; 1.0]%float = (Int 0, 0%nat)
  /\ compare_values [2.0; 1.0]%float <> (Float 1.0, 1%nat).
Proof. split; [reflexivity|discriminate]. Qed.

(** C9: for every list, the empty one included, the value [compare_values]
    returns is the minimum of zero and the elements of the list: with [b] the
    returned value as a float (the int [0] being [0.0]), [b] is zero or an
    element of the list, [b <= 0], and [b <= v] for every element [v] that is
    a number (a NaN compares with nothing).  On the empty list the result is
    [(0, 0)]. *)
Theorem compare_values_min_with_zero :
  compare_values [] = (Int 0, 0%nat)
  /\ forall values : list float,
       exists b : float,
         (fst (compare_values values) = Int 0 /\ b = 0%float
          \/ fst (compare_values values) = Float b /\ In b values)
         /\ (b <=? 0)%float = true
         /\ forallb (fun v => is_nan v || (b <=? v)%float) values = true.
Proof.
  split; [reflexivity|]. intros values.
  destruct (compare_values_inv values)
    as [[E H0]|(f & E & Hneg & Hi & Hlow & _)].
  - exists 0%float. rewrite E. repeat split; [now left|].
    apply forallb_forall. intros v Hv.
    rewrite Forall_forall in H0. specialize (H0 v Hv).
    destruct (is_nan v) eqn:Hn; [reflexivity|].
    now apply float_leb_total.
  - exists f. repeat split.
    + right. split; [exact E|]. exact (nth_error_In _ _ Hi).
    + now apply float_ltb_leb.
    + apply forallb_forall. intros v Hv.
      rewrite Forall_forall in Hlow. specialize (Hlow v Hv).
      destruct (is_nan v) eqn:Hn; [reflexivity|].
      apply float_leb_total; trivial.
      exact (float_ltb_not_nan _ _ Hneg).
Qed.

(** C10: the pair [(sol, i)] that [compare_values] returns is [(0, 0)], or
    [i] is an index of the list, the element at [i] is [sol], [sol] is
    strictly negative, and [sol] occurs at no index before [i] (no earlier
    element is even equal to it as a number). *)
Theorem compare_values_index_invariant (values : list float) :
  let (sol, i) := compare_values values in
  (sol = Int 0 /\ i = 0%nat)
  \/ ((i < List.length values)%nat
      /\ exists f : float,
           sol = Float f
           /\ nth_error values i = Some f
           /\ (f <? 0)%float = true
           /\ forall (j : nat) (v : float),
                (j < i)%nat -> nth_error values j = Some v ->
                v <> f /\ (v =? f)%float = false).
Proof.
  destruct (compare_values_inv values)
    as [[E _]|(f & E & Hneg & Hi & _ & Hfirst)].
  - rewrite E. now left.
  - destruct (compare_values values) as [sol i]. cbn [fst snd] in *.
    right. split; [apply nth_error_Some; now rewrite Hi|].
    exists f. repeat split; trivial.
    + intros ->.
      assert (Hj : nth_error (firstn i values) j = Some f).
      { rewrite nth_error_firstn.
        now replace (Nat.ltb j i) with true by (symmetry; now apply Nat.ltb_lt). }
      apply nth_error_In in Hj. rewrite Forall_forall in Hfirst.
      apply Hfirst in Hj.
      pose proof (float_ltb_not_nan _ _ Hneg) as Hn. unfold is_nan in Hn.
      rewrite Hj in Hn. discriminate.
    + assert (Hj : nth_error (firstn i values) j = Some v).
      { rewrite nth_error_firstn.
        now replace (Nat.ltb j i) with true by (symmetry; now apply Nat.ltb_lt). }
      apply nth_error_In in Hj. rewrite Forall_forall in Hfirst.
      now apply Hfirst.
Qed.

(** * The claims about the reference run *)

(** C1: with [epsilon = 0.0103] eV converted by [convert_to_j] and
    [sigma = 3.40], [lennard_jones] at the six distances returns the six
    recorded values, and [compare_values] on that list returns the pair
    [(-1.6491152810326125e-21, 2)]. *)
Theorem end_to_end_scenario :
  exists epsilon_j : float,
    convert_to_j 0.0103 = Ok epsilon_j
    /\ map (lennard_jones epsilon_j 3.40) [3.0; 3.4; 3.8; 4.2; 4.6; 5.0]%float
       = map Ok [1.5653523415738785e-20; 0.0; -1.6491152810326125e-21;
                 -1.3349087048372307e-21; -9.00808599371665e-22;
                 -5.880980609909882e-22]%float
    /\ compare_values
         [1.5653523415738785e-20; 0.0; -1.6491152810326125e-21;
          -1.3349087048372307e-21; -9.00808599371665e-22;
          -5.880980609909882e-22]%float
       = (Float (-1.6491152810326125e-21), 2%nat)
    /\ cell7 = Ok (Float (-1.6491152810326125e-21), 2%nat).
Proof.
  exists 1.65024193302e-21%float.
  repeat split; vm_compute; reflexivity.
Qed.

(** C4: the minimum [-1.6491152810326125e-21] times [10^21], rounded to two
    decimals, is exactly [-1.65], and the line printed is [-1.65e-21 J]. *)
Theorem rounded_minimum_and_output :
  scale_and_round (Float (-1.6491152810326125e-21)) = Ok (Float (-1.65))
  /\ output_line (Float (-1.65)) = "-1.65e-21 J"%string
  /\ cell8 = Ok "-1.65e-21 J"%string.
Proof. repeat split; vm_compute; reflexivity. Qed.

(** C5, as stated, fails: [convert_to_j(1.0)] is not the double
    [1.602176634e-19]. *)
Lemma convert_to_j_one_is_not_the_constant :
  convert_to_j 1.0 <> Ok 1.602176634e-19%float.
Proof.
  intros H.
  apply (f_equal (carries (fun v => (v =? 1.602176634e-19)%float))) in H.
  vm_compute in H. discriminate.
Qed.

(** C5, amended: [convert_to_j] never raises and is two float products,
    [(value * 1.602176634) * 1e-19]; at [1.0] that is
    [1.6021766340000001e-19], the double next above [1.602176634e-19]. *)
Theorem convert_to_j_value :
  (forall value : float,
      convert_to_j value = Ok (value * 1.602176634 * 1e-19)%float)
  /\ convert_to_j 1.0 = Ok 1.6021766340000001e-19%float
  /\ 1.6021766340000001e-19%float = next_up 1.602176634e-19.
Proof.
  split; [|split; vm_compute; reflexivity].
  intros value. unfold convert_to_j.
  replace (int_pow 10 (-19)) with (Ok (Float 1e-19))
    by (vm_compute; reflexivity).
  reflexivity.
Qed.

(** * The claims about [lennard_jones] *)

Section LennardJones.

Local Open Scope float_scope.

(** A finite float that is not a zero is not equal to zero. *)
Lemma finite_nonzero (x : float) (s : bool) (m : positive) (e : Z) :
  Prim2SF x = S754_finite s m e -> (x =? 0) = false.
Proof.
  intros H. rewrite eqb_spec, H. now destruct s.
Qed.

(** A float strictly between zero and infinity is a finite positive one. *)
Lemma positive_finite (x : float) :
  (0 <? x) = true -> (x <? infinity) = true ->
  exists (m : positive) (e : Z), Prim2SF x = S754_finite false m e.
Proof.
  rewrite !ltb_spec.
  replace (Prim2SF 0) with (S754_zero false) by reflexivity.
  replace (Prim2SF infinity) with (S754_infinity false) by reflexivity.
  destruct (Prim2SF x) as [[]|[]| |[] m e]; try discriminate.
  intros _ _. now exists m, e.
Qed.

(** Dividing a mantissa by itself: the quotient is [2^53 * 2^(-53)], exactly. *)
Lemma SFdiv_core_self (m : positive) (e : Z) :
  SFdiv_core_binary prec emax (Z.pos m) e (Z.pos m) e
  = (9007199254740992, -53, loc_Exact)%Z.
Proof.
  unfold SFdiv_core_binary.
  rewrite !Z.sub_diag.
  change (Z.min (fexp prec emax 0) 0) with (-53)%Z.
  change (0 - -53)%Z with 53%Z. cbv iota.
  rewrite Z.shiftl_mul_pow2 by lia.
  pose proof (Z_div_mod (Z.pos m * 2 ^ 53) (Z.pos m) ltac:(lia)) as D.
  destruct (Z.div_eucl (Z.pos m * 2 ^ 53) (Z.pos m)) as [q r].
  destruct D as [D1 D2].
  assert (Hq : q = (2 ^ 53)%Z) by nia.
  assert (Hr : r = 0%Z) by nia.
  subst q r. unfold new_location.
  destruct (Z.even (Z.pos m)); reflexivity.
Qed.

Lemma float_div_self (x : float) (s : bool) (m : positive) (e : Z) :
  Prim2SF x = S754_finite s m e -> x / x = 1.
Proof.
  intros H. apply Prim2SF_inj. rewrite div_spec, H.
  unfold SF64div, SFdiv. rewrite SFdiv_core_self.
  destruct s; reflexivity.
Qed.

(** A finite float times zero is a zero. *)
Lemma finite_times_zero (x : float) :
  is_finite x = true -> (x * 0 =? 0) = true.
Proof.
  unfold is_finite, is_nan, is_infinity.
  rewrite !eqb_spec, abs_spec, mul_spec.
  replace (Prim2SF 0) with (S754_zero false) by reflexivity.
  replace (Prim2SF infinity) with (S754_infinity false) by reflexivity.
  destruct (Prim2SF x) as [[]|[]| |[] m e]; try discriminate; reflexivity.
Qed.

(** With a positive exponent, [float_pow] divides by nothing. *)
Lemma float_pow_positive_exponent (iv : float) (iw : Z) :
  (0 < iw)%Z ->
  (exists v, Py.float_pow iv iw = Ok v) \/ Py.float_pow iv iw = Raise OverflowError.
Proof.
  intros Hw. unfold Py.float_pow.
  replace (iw =? 0)%Z with false by (symmetry; apply Z.eqb_neq; lia).
  replace (iw <? 0)%Z with false by (symmetry; apply Z.ltb_ge; lia).
  repeat match goal with
         | |- context [if ?c then _ else _] => destruct c
         end; eauto.
Qed.

(** The result is a function of [epsilon] and the quotient alone. *)
Lemma lennard_jones_of_quotient (epsilon sigma r sigma' r' : float) :
  (r =? 0) = false -> (r' =? 0) = false -> sigma' / r' = sigma / r ->
  lennard_jones epsilon sigma' r' = lennard_jones epsilon sigma r.
Proof.
  intros Hr Hr' Hq. unfold lennard_jones, Py.float_truediv.
  rewrite Hr, Hr', Hq. reflexivity.
Qed.

Lemma SFdiv_core_shift (m1 m2 : positive) (e1 e2 j : Z) :
  SFdiv_core_binary prec emax (Z.pos m1) (e1 + j) (Z.pos m2) (e2 + j)
  = SFdiv_core_binary prec emax (Z.pos m1) e1 (Z.pos m2) e2.
Proof.
  unfold SFdiv_core_binary.
  replace (Zdigits2 (Z.pos m1) + (e1 + j) - (Zdigits2 (Z.pos m2) + (e2 + j)))%Z
    with (Zdigits2 (Z.pos m1) + e1 - (Zdigits2 (Z.pos m2) + e2))%Z by lia.
  replace (e1 + j - (e2 + j))%Z with (e1 - e2)%Z by lia.
  reflexivity.
Qed.

End LennardJones.

(** C6, as stated, fails: at [epsilon = 1e308] the product [4 * epsilon]
    overflows and [lennard_jones(epsilon, 3.4, 3.4)] is a NaN, not zero. *)
Lemma lennard_jones_at_sigma_not_zero :
  (0 <? 3.4)%float = true
  /\ lennard_jones 1e308 3.4 3.4 = Ok nan
  /\ (nan =? 0)%float = false.
Proof. repeat split; vm_compute; reflexivity. Qed.

(** C6, amended: when [4 * epsilon] is finite and [sigma] is positive and
    finite, [lennard_jones(epsilon, sigma, sigma)] returns a zero. *)
Theorem lennard_jones_zero_at_sigma (epsilon sigma : float) :
  is_finite (4 * epsilon) = true ->
  (0 <? sigma)%float = true ->
  (sigma <? infinity)%float = true ->
  exists v : float,
    lennard_jones epsilon sigma sigma = Ok v /\ (v =? 0)%float = true.
Proof.
  intros Hfin Hpos Hinf.
  destruct (positive_finite sigma Hpos Hinf) as (m & e & Hs).
  exists (4 * epsilon * 0)%float. split; [|now apply finite_times_zero].
  unfold lennard_jones, float_truediv.
  rewrite (finite_nonzero _ _ _ _ Hs), (float_div_self _ _ _ _ Hs).
  reflexivity.
Qed.

Lemma lennard_jones_zero_at_sigma_witness :
  exists v : float,
    lennard_jones 1.65024193302e-21 3.40 3.40 = Ok v /\ (v =? 0)%float = true.
Proof.
  apply (lennard_jones_zero_at_sigma 1.65024193302e-21 3.40); reflexivity.
Defined.

(** C7, as stated, fails: with the notebook's epsilon and [k = 7], scaling
    [sigma = 3.4] and [r = 3.8] changes the result. *)
Lemma lennard_jones_not_scale_invariant :
  (0 <? 7)%float = true
  /\ lennard_jones 1.65024193302e-21 3.4 3.8
     = Ok (-1.6491152810326125e-21)%float
  /\ lennard_jones 1.65024193302e-21 (7 * 3.4) (7 * 3.8)
     = Ok (-1.6491152810326121e-21)%float
  /\ (-1.6491152810326125e-21 =? -1.6491152810326121e-21)%float = false.
Proof. repeat split; vm_compute; reflexivity. Qed.

(** Scaling can also leave the range of the doubles, whatever [pow] does:
    [k = 1e-200] takes [sigma = r = 1e-200] to zero, and [k = 10] takes
    [sigma = r = 1e308] to infinity. *)
Example scaling_out_of_range :
  lennard_jones 1 1e-200 1e-200 = Ok 0%float
  /\ lennard_jones 1 (1e-200 * 1e-200) (1e-200 * 1e-200)
     = Raise ZeroDivisionError
  /\ lennard_jones 1 1e308 1e308 = Ok 0%float
  /\ lennard_jones 1 (10 * 1e308) (10 * 1e308) = Ok nan.
Proof. repeat split; vm_compute; reflexivity. Qed.

(** C7, amended: the result depends on [sigma] and the distance through
    their quotient only, and it is unchanged when both are scaled by the same
    power of two without rounding (same mantissas, both exponents shifted
    by [j]). *)
Theorem lennard_jones_scaling_by_power_of_two
    (epsilon sigma r sigma' r' : float)
    (s1 s2 : bool) (m1 m2 : positive) (e1 e2 j : Z) :
  Prim2SF sigma = S754_finite s1 m1 e1 ->
  Prim2SF r = S754_finite s2 m2 e2 ->
  Prim2SF sigma' = S754_finite s1 m1 (e1 + j) ->
  Prim2SF r' = S754_finite s2 m2 (e2 + j) ->
  lennard_jones epsilon sigma' r' = lennard_jones epsilon sigma r.
Proof.
  intros Hs Hr Hs' Hr'.
  apply lennard_jones_of_quotient.
  - exact (finite_nonzero _ _ _ _ Hr).
  - exact (finite_nonzero _ _ _ _ Hr').
  - apply Prim2SF_inj. rewrite !div_spec, Hs, Hr, Hs', Hr'.
    unfold SF64div, SFdiv. now rewrite SFdiv_core_shift.
Qed.

Lemma lennard_jones_scaling_by_power_of_two_witness :
  lennard_jones 1.65024193302e-21 (2 * 3.4) (2 * 3.8)
  = lennard_jones 1.65024193302e-21 3.4 3.8.
Proof.
  apply (lennard_jones_scaling_by_power_of_two
           1.65024193302e-21 3.4 3.8 (2 * 3.4) (2 * 3.8)
           false false 7656119366529843 8556839292003942 (-51) (-51) 1);
    reflexivity.
Defined.

(** C8: when the distance is strictly positive the division
    [sigma / distance] is defined and [lennard_jones] does not raise
    [ZeroDivisionError]. *)
Theorem lennard_jones_no_zero_division (epsilon sigma distance : float) :
  (0 <? distance)%float = true ->
  float_truediv sigma distance = Ok (sigma / distance)%float
  /\ lennard_jones epsilon sigma distance <> Raise ZeroDivisionError.
Proof.
  intros Hpos.
  assert (Hd : float_truediv sigma distance = Ok (sigma / distance)%float).
  { unfold float_truediv. now rewrite (float_ltb_neq _ _ Hpos). }
  split; [exact Hd|].
  unfold lennard_jones. rewrite Hd. cbn [bind].
  destruct (float_pow_positive_exponent (sigma / distance) 12 eq_refl)
    as [[p12 E12]|E12]; rewrite E12; cbn [bind]; [|discriminate].
  destruct (float_pow_positive_exponent (sigma / distance) 6 eq_refl)
    as [[p6 E6]|E6]; rewrite E6; cbn [bind]; discriminate.
Qed.

(** The six distances of the notebook are strictly positive, so the theorem
    applies to each evaluation of cell 5. *)
Lemma reference_distances_no_zero_division :
  Forall (fun d : float =>
            float_truediv sigma d = Ok (sigma / d)%float
            /\ lennard_jones 1.65024193302e-21 sigma d <> Raise ZeroDivisionError)
         distances.
Proof.
  unfold distances.
  repeat (apply Forall_cons;
          [apply lennard_jones_no_zero_division; reflexivity|]).
  apply Forall_nil.
Defined.

(** * Further properties of the notebook's functions *)

(** ** Signs, NaN and the classes of a float *)

Section FloatSigns.

Local Open Scope float_scope.

Lemma binary_round_aux_opp (s : bool) (m e : Z) (l : location) :
  binary_round_aux prec emax (negb s) m e l
  = SFopp (binary_round_aux prec emax s m e l).
Proof.
  unfold binary_round_aux.
  destruct (shr_fexp prec emax m e l) as [mrs' e'].
  destruct (shr_fexp prec emax _ e' loc_Exact) as [mrs'' e''].
  destruct (shr_m mrs''); try reflexivity.
  destruct (e'' <=? emax - prec)%Z; reflexivity.
Qed.

Lemma binary_round_aux_flip (s : bool) (m e : Z) (l : location) :
  binary_round_aux prec emax s m e l
  = SFopp (binary_round_aux prec emax (negb s) m e l).
Proof.
  rewrite <- binary_round_aux_opp. now rewrite negb_involutive.
Qed.

Lemma SFmul_opp_l (x y : spec_float) :
  SFmul prec emax (SFopp x) y = SFopp (SFmul prec emax x y).
Proof.
  destruct x as [sx|sx| |sx mx ex], y as [sy|sy| |sy my ey];
    cbn [SFmul SFopp]; try reflexivity;
    try (destruct sx, sy; reflexivity).
  destruct sx, sy; cbn [xorb negb];
    first [apply (binary_round_aux_opp false) | apply (binary_round_aux_flip false)].
Qed.

Lemma SFdiv_opp_r (x y : spec_float) :
  SFdiv prec emax x (SFopp y) = SFopp (SFdiv prec emax x y).
Proof.
  destruct x as [sx|sx| |sx mx ex], y as [sy|sy| |sy my ey];
    cbn [SFdiv SFopp]; try reflexivity;
    try (destruct sx, sy; reflexivity).
  destruct (SFdiv_core_binary prec emax (Z.pos mx) ex (Z.pos my) ey)
    as [[mz ez] lz].
  destruct sx, sy; cbn [xorb negb];
    first [apply (binary_round_aux_opp false) | apply (binary_round_aux_flip false)].
Qed.

Lemma float_opp_involutive (x : float) : - - x = x.
Proof.
  apply Prim2SF_inj. rewrite !opp_spec.
  destruct (Prim2SF x); cbn [SFopp]; now rewrite ?negb_involutive.
Qed.

Lemma float_mul_opp_l (x y : float) : (- x) * y = - (x * y).
Proof.
  apply Prim2SF_inj. rewrite opp_spec, !mul_spec, opp_spec.
  apply SFmul_opp_l.
Qed.

Lemma float_div_opp_r (x y : float) : x / (- y) = - (x / y).
Proof.
  apply Prim2SF_inj. rewrite opp_spec, !div_spec, opp_spec.
  apply SFdiv_opp_r.
Qed.

Lemma SFeqb_refl_finite (s : bool) (m : positive) (e : Z) :
  SFeqb (S754_finite s m e) (S754_finite s m e) = true.
Proof.
  unfold SFeqb, SFcompare. rewrite Z.compare_refl.
  change (Pos.compare_cont Eq m m) with (Pos.compare m m).
  rewrite Pos.compare_refl. now destruct s.
Qed.

(** What the tests of [float_pow] answer on each class of float. *)
Lemma class_nan (x : float) : Prim2SF x = S754_nan -> x = nan.
Proof. intros H. now apply Prim2SF_inj. Qed.

Lemma is_nan_true (x : float) : is_nan x = true -> x = nan.
Proof.
  intros H. apply class_nan.
  unfold is_nan in H. rewrite eqb_spec in H.
  destruct (Prim2SF x) as [[]|[]| |s m e]; try discriminate; try reflexivity.
  now rewrite SFeqb_refl_finite in H.
Qed.

Lemma class_zero (x : float) (s : bool) :
  Prim2SF x = S754_zero s ->
  is_nan x = false /\ is_infinity x = false /\ (x =? 0) = true.
Proof.
  intros H. unfold is_nan, is_infinity.
  rewrite !eqb_spec, abs_spec, H. now destruct s.
Qed.

Lemma class_infinity (x : float) (s : bool) :
  Prim2SF x = S754_infinity s -> is_nan x = false /\ is_infinity x = true.
Proof.
  intros H. unfold is_nan, is_infinity.
  rewrite !eqb_spec, abs_spec, H. now destruct s.
Qed.

Lemma class_finite (x : float) (s : bool) (m : positive) (e : Z) :
  Prim2SF x = S754_finite s m e ->
  is_nan x = false /\ is_infinity x = false
  /\ (x =? 0) = false /\ (x <? 0) = s.
Proof.
  intros H. unfold is_nan, is_infinity.
  rewrite !eqb_spec, ltb_spec, abs_spec, H. cbn [SFabs].
  rewrite SFeqb_refl_finite. now destruct s.
Qed.

Lemma float_eqb_opp_zero (x : float) : (- x =? 0) = (x =? 0).
Proof.
  rewrite !eqb_spec, opp_spec.
  destruct (Prim2SF x) as [[]|[]| |[] m e]; reflexivity.
Qed.

Lemma float_abs_opp (x : float) : abs (- x) = abs x.
Proof.
  apply Prim2SF_inj. rewrite !abs_spec, opp_spec.
  now destruct (Prim2SF x).
Qed.

(** An even power does not see the sign of its base. *)
Lemma float_pow_opp_even (iv : float) (iw : Z) :
  Z.odd iw = false -> Py.float_pow (- iv) iw = Py.float_pow iv iw.
Proof.
  intros Hodd. unfold Py.float_pow. rewrite Hodd.
  destruct (iw =? 0)%Z; [reflexivity|].
  pose proof (opp_spec iv) as Ho.
  destruct (Prim2SF iv) as [s|s| |s m e] eqn:E; cbn [SFopp] in Ho.
  - destruct (class_zero _ _ E) as (-> & -> & ->).
    destruct (class_zero _ _ Ho) as (-> & -> & ->). reflexivity.
  - destruct (class_infinity _ _ E) as (-> & ->).
    destruct (class_infinity _ _ Ho) as (-> & ->).
    now rewrite float_abs_opp.
  - now rewrite (class_nan _ Ho), (class_nan _ E).
  - destruct (class_finite _ _ _ _ E) as (-> & -> & -> & ->).
    destruct (class_finite _ _ _ _ Ho) as (-> & -> & -> & ->).
    rewrite !andb_false_r.
    destruct s; cbn [negb]; now rewrite ?float_opp_involutive.
Qed.

Lemma float_div_nan_r (x : float) : x / nan = nan.
Proof.
  apply Prim2SF_inj. rewrite div_spec.
  replace (Prim2SF nan) with S754_nan by reflexivity.
  now destruct (Prim2SF x).
Qed.

Lemma float_div_nan_l (x : float) : nan / x = nan.
Proof.
  apply Prim2SF_inj. rewrite div_spec.
  replace (Prim2SF nan) with S754_nan by reflexivity. reflexivity.
Qed.

Lemma float_mul_nan_r (x : float) : x * nan = nan.
Proof.
  apply Prim2SF_inj. rewrite mul_spec.
  replace (Prim2SF nan) with S754_nan by reflexivity.
  now destruct (Prim2SF x).
Qed.

End FloatSigns.

Section FloatSignsMore.

Local Open Scope float_scope.

Lemma SFmul_opp_r (x y : spec_float) :
  SFmul prec emax x (SFopp y) = SFopp (SFmul prec emax x y).
Proof.
  destruct x as [sx|sx| |sx mx ex], y as [sy|sy| |sy my ey];
    cbn [SFmul SFopp]; try reflexivity;
    try (destruct sx, sy; reflexivity).
  destruct sx, sy; cbn [xorb negb];
    first [apply (binary_round_aux_opp false) | apply (binary_round_aux_flip false)].
Qed.

Lemma SFdiv_opp_l (x y : spec_float) :
  SFdiv prec emax (SFopp x) y = SFopp (SFdiv prec emax x y).
Proof.
  destruct x as [sx|sx| |sx mx ex], y as [sy|sy| |sy my ey];
    cbn [SFdiv SFopp]; try reflexivity;
    try (destruct sx, sy; reflexivity).
  destruct (SFdiv_core_binary prec emax (Z.pos mx) ex (Z.pos my) ey)
    as [[mz ez] lz].
  destruct sx, sy; cbn [xorb negb];
    first [apply (binary_round_aux_opp false) | apply (binary_round_aux_flip false)].
Qed.

Lemma float_mul_opp_r (x y : float) : x * (- y) = - (x * y).
Proof.
  apply Prim2SF_inj. rewrite opp_spec, !mul_spec, opp_spec.
  apply SFmul_opp_r.
Qed.

Lemma float_div_opp_l (x y : float) : (- x) / y = - (x / y).
Proof.
  apply Prim2SF_inj. rewrite opp_spec, !div_spec, opp_spec.
  apply SFdiv_opp_l.
Qed.

(** [convert_to_j] as the two products it computes. *)
Lemma convert_to_j_products (value : float) :
  convert_to_j value = Ok (value * 1.602176634 * 1e-19).
Proof.
  unfold convert_to_j.
  replace (Py.int_pow 10 (-19)) with (Ok (Float 1e-19))
    by (vm_compute; reflexivity).
  reflexivity.
Qed.

(** [lennard_jones] once the division is known to be defined. *)
Lemma lennard_jones_defined (epsilon sigma distance : float) :
  (distance =? 0) = false ->
  lennard_jones epsilon sigma distance
  = (p12 <- Py.float_pow (sigma / distance) 12 ;;
     p6 <- Py.float_pow (sigma / distance) 6 ;;
     Ok ((4 * epsilon) * (p12 - p6))).
Proof.
  intros H. unfold lennard_jones, Py.float_truediv. now rewrite H.
Qed.

Lemma lennard_jones_undefined (epsilon sigma distance : float) :
  (distance =? 0) = true ->
  lennard_jones epsilon sigma distance = Raise ZeroDivisionError.
Proof.
  intros H. unfold lennard_jones, Py.float_truediv. now rewrite H.
Qed.

End FloatSignsMore.

(** ** [lennard_jones] and [convert_to_j]: errors, NaN and signs *)

(** X1: [lennard_jones] raises [ZeroDivisionError] exactly when the distance
    is a zero, of either sign; no other argument makes it divide by zero. *)
Theorem lennard_jones_zero_division_iff (epsilon sigma distance : float) :
  lennard_jones epsilon sigma distance = Raise ZeroDivisionError
  <-> (distance =? 0)%float = true.
Proof.
  split.
  - intros H. destruct (distance =? 0)%float eqn:E; [reflexivity|].
    rewrite (lennard_jones_defined _ _ _ E) in H.
    destruct (float_pow_positive_exponent (sigma / distance) 12 eq_refl)
      as [[p12 E12]|E12]; rewrite E12 in H; cbn [bind] in H; [|discriminate].
    destruct (float_pow_positive_exponent (sigma / distance) 6 eq_refl)
      as [[p6 E6]|E6]; rewrite E6 in H; cbn [bind] in H; discriminate.
  - apply lennard_jones_undefined.
Qed.

(** X2: a NaN is no error.  With a NaN distance [lennard_jones] returns NaN;
    with a NaN sigma it returns NaN unless the distance is a zero, which
    raises first. *)
Theorem lennard_jones_nan :
  (forall epsilon sigma : float, lennard_jones epsilon sigma nan = Ok nan)
  /\ (forall epsilon distance : float,
        lennard_jones epsilon nan distance
        = if (distance =? 0)%float then Raise ZeroDivisionError else Ok nan).
Proof.
  split.
  - intros epsilon sigma.
    rewrite lennard_jones_defined by reflexivity.
    rewrite float_div_nan_r.
    replace (float_pow nan 12) with (Ok nan) by reflexivity.
    replace (float_pow nan 6) with (Ok nan) by reflexivity.
    cbn [bind]. replace (nan - nan)%float with nan by reflexivity.
    now rewrite float_mul_nan_r.
  - intros epsilon distance.
    destruct (distance =? 0)%float eqn:E.
    + now apply lennard_jones_undefined.
    + rewrite lennard_jones_defined by exact E.
      rewrite float_div_nan_l.
      replace (float_pow nan 12) with (Ok nan) by reflexivity.
      replace (float_pow nan 6) with (Ok nan) by reflexivity.
      cbn [bind]. replace (nan - nan)%float with nan by reflexivity.
      now rewrite float_mul_nan_r.
Qed.

(** X3: [lennard_jones] does not see the sign of the distance or of sigma:
    a negative distance is accepted and gives what its opposite gives, the
    exponents 12 and 6 being even. *)
Theorem lennard_jones_even (epsilon sigma distance : float) :
  lennard_jones epsilon sigma (- distance)
  = lennard_jones epsilon sigma distance
  /\ lennard_jones epsilon (- sigma) distance
     = lennard_jones epsilon sigma distance.
Proof.
  split.
  - destruct (distance =? 0)%float eqn:E.
    + rewrite !lennard_jones_undefined; trivial.
      now rewrite float_eqb_opp_zero.
    + rewrite !lennard_jones_defined; trivial;
        [|now rewrite float_eqb_opp_zero].
      now rewrite float_div_opp_r, !float_pow_opp_even.
  - destruct (distance =? 0)%float eqn:E.
    + now rewrite !lennard_jones_undefined.
    + rewrite !lennard_jones_defined; trivial.
      now rewrite float_div_opp_l, !float_pow_opp_even.
Qed.

(** X4: [lennard_jones] is odd in epsilon: negating epsilon negates the
    result exactly, and leaves an exception as it is. *)
Theorem lennard_jones_odd_in_epsilon (epsilon sigma distance : float) :
  lennard_jones (- epsilon) sigma distance
  = result_opp (lennard_jones epsilon sigma distance).
Proof.
  unfold lennard_jones.
  destruct (float_truediv sigma distance) as [q|e]; [cbn [bind]|reflexivity].
  destruct (float_pow q 12) as [p12|e]; [cbn [bind]|reflexivity].
  destruct (float_pow q 6) as [p6|e]; [cbn [bind result_opp]|reflexivity].
  now rewrite float_mul_opp_r, float_mul_opp_l.
Qed.

(** X5: [convert_to_j] is odd: the joules of a negated energy are the
    negated joules, exactly. *)
Theorem convert_to_j_odd (value : float) :
  convert_to_j (- value) = result_opp (convert_to_j value).
Proof.
  rewrite !convert_to_j_products. cbn [result_opp].
  now rewrite !float_mul_opp_l.
Qed.

(** ** [compare_values]: when it is right, and what it ignores *)

Section CompareValuesMore.

(** Two negative floats, neither below the other, are the same float. *)
Lemma SF_negative_eq (x y : spec_float) :
  SFltb x (S754_zero false) = true -> SFltb y (S754_zero false) = true ->
  SFltb x y = false -> SFltb y x = false -> x = y.
Proof.
  unfold SFltb, SFcompare.
  destruct x as [[]|[]| |[] m1 e1], y as [[]|[]| |[] m2 e2];
    try discriminate; try reflexivity.
  change (Pos.compare_cont Eq m1 m2) with (Pos.compare m1 m2).
  change (Pos.compare_cont Eq m2 m1) with (Pos.compare m2 m1).
  intros _ _.
  destruct (Z.compare_spec e1 e2), (Z.compare_spec e2 e1);
    try discriminate; try lia.
  destruct (Pos.compare_spec m1 m2), (Pos.compare_spec m2 m1);
    try discriminate; try lia.
  intros _ _. now subst.
Qed.

Lemma float_negative_eq (f g : float) :
  (f <? 0)%float = true -> (g <? 0)%float = true ->
  (f <? g)%float = false -> (g <? f)%float = false -> f = g.
Proof.
  rewrite !ltb_spec.
  replace (Prim2SF 0) with (S754_zero false) by reflexivity.
  intros Hf Hg Hfg Hgf. apply Prim2SF_inj.
  now apply SF_negative_eq.
Qed.

(** A value that is not below zero is not below the candidate. *)
Lemma not_below_candidate (values : list float) (v : float) :
  (v <? 0)%float = false ->
  float_lt_num v (fst (compare_values values)) = false.
Proof.
  intros Hv.
  destruct (compare_values_inv values) as [[E _]|(f & E & Hneg & _)];
    rewrite E; cbn [fst float_lt_num].
  - now rewrite float_lt_int_zero.
  - destruct (v <? f)%float eqn:Hvf; [|reflexivity].
    now rewrite (float_ltb_trans _ _ _ Hvf Hneg) in Hv.
Qed.

Lemma scan_app (l1 l2 : list float) (n : nat) (st : num * nat) :
  scan (l1 ++ l2) n st = scan l2 (n + List.length l1) (scan l1 n st).
Proof.
  revert n st. induction l1 as [|v l1 IH]; intros n st; cbn [app scan List.length].
  - now rewrite Nat.add_0_r.
  - rewrite IH. now rewrite Nat.add_succ_r.
Qed.

Lemma scan_shift (l : list float) (m n : nat) (st : num * nat) :
  scan l (m + n) (shift_index n st) = shift_index n (scan l m st).
Proof.
  revert m st. induction l as [|v l IH]; intros m st; cbn [scan]; [reflexivity|].
  assert (E : fst (shift_index n st) = fst st).
  { destruct st as [[z|f] i]; reflexivity. }
  rewrite E.
  destruct (float_lt_num v (fst st)).
  - exact (IH (S m) (Float v, m)).
  - exact (IH (S m) st).
Qed.

Lemma scan_nothing_below (l : list float) (n : nat) :
  Forall (fun v => (v <? 0)%float = false) l ->
  scan l n (Int 0, 0%nat) = (Int 0, 0%nat).
Proof.
  intros H. revert n. induction H as [|v l Hv _ IH]; intros n; cbn [scan fst];
    [reflexivity|].
  cbn [float_lt_num]. rewrite float_lt_int_zero, Hv. apply IH.
Qed.

End CompareValuesMore.

(** X6: when the list has an element below zero, [compare_values] is right:
    it returns an element of the list that is [<=] every element that is a
    number, with the index of its first occurrence. *)
Theorem compare_values_minimum_of_negative (values : list float) :
  Exists (fun v => (v <? 0)%float = true) values ->
  exists (f : float) (i : nat),
    compare_values values = (Float f, i)
    /\ nth_error values i = Some f
    /\ forallb (fun v => is_nan v || (f <=? v)%float) values = true
    /\ forall (j : nat) (v : float),
         (j < i)%nat -> nth_error values j = Some v -> (v =? f)%float = false.
Proof.
  intros Hex.
  destruct (compare_values_inv values)
    as [[_ H0]|(f & E & Hneg & Hi & Hlow & Hfirst)].
  - apply Exists_exists in Hex. destruct Hex as (v & Hin & Hv).
    rewrite Forall_forall in H0. now rewrite (H0 v Hin) in Hv.
  - destruct (compare_values values) as [sol i]. cbn [fst snd] in *. subst sol.
    exists f, i. repeat split; trivial.
    + apply forallb_forall. intros v Hv.
      rewrite Forall_forall in Hlow. specialize (Hlow v Hv).
      destruct (is_nan v) eqn:Hn; [reflexivity|].
      apply float_leb_total; trivial.
      exact (float_ltb_not_nan _ _ Hneg).
    + intros j v Hj Hv.
      assert (Hin : nth_error (firstn i values) j = Some v).
      { rewrite nth_error_firstn.
        now replace (Nat.ltb j i) with true by (symmetry; now apply Nat.ltb_lt). }
      apply nth_error_In in Hin. rewrite Forall_forall in Hfirst.
      now apply Hfirst.
Qed.

Lemma compare_values_minimum_of_negative_witness :
  exists (f : float) (i : nat),
    compare_values recorded_values = (Float f, i)
    /\ nth_error recorded_values i = Some f
    /\ forallb (fun v => is_nan v || (f <=? v)%float) recorded_values = true
    /\ forall (j : nat) (v : float),
         (j < i)%nat -> nth_error recorded_values j = Some v ->
         (v =? f)%float = false.
Proof.
  apply (compare_values_minimum_of_negative recorded_values).
  unfold recorded_values. do 2 apply Exists_cons_tl. apply Exists_cons_hd.
  reflexivity.
Defined.

(** X7: the value that [compare_values] returns does not depend on the order
    of the list (the index does). *)
Theorem compare_values_value_of_permutation (l l' : list float) :
  Permutation l l' ->
  fst (compare_values l) = fst (compare_values l').
Proof.
  intros P.
  destruct (compare_values_inv l) as [[E H0]|(f & E & Hneg & Hi & Hlow & _)];
    destruct (compare_values_inv l')
      as [[E' H0']|(f' & E' & Hneg' & Hi' & Hlow' & _)].
  - now rewrite E, E'.
  - apply nth_error_In in Hi'.
    apply (Permutation_in _ (Permutation_sym P)) in Hi'.
    rewrite Forall_forall in H0. now rewrite (H0 _ Hi') in Hneg'.
  - apply nth_error_In in Hi. apply (Permutation_in _ P) in Hi.
    rewrite Forall_forall in H0'. now rewrite (H0' _ Hi) in Hneg.
  - rewrite E, E'. f_equal.
    apply nth_error_In in Hi, Hi'.
    rewrite Forall_forall in Hlow, Hlow'.
    apply float_negative_eq; trivial.
    + apply Hlow'. exact (Permutation_in _ P Hi).
    + apply Hlow. exact (Permutation_in _ (Permutation_sym P) Hi').
Qed.

Lemma compare_values_value_of_permutation_witness :
  fst (compare_values [-1.5; 2.0; -3.0]%float)
  = fst (compare_values [2.0; -3.0; -1.5]%float).
Proof.
  apply (compare_values_value_of_permutation
           [-1.5; 2.0; -3.0]%float [2.0; -3.0; -1.5]%float).
  apply Permutation_cons_app with (l1 := [2.0; -3.0]%float) (l2 := []).
  rewrite app_nil_r. apply Permutation_refl.
Defined.

(** X8: values that are not below zero, appended to the list, change
    nothing: neither the value nor the index. *)
Theorem compare_values_app_not_below (l l' : list float) :
  Forall (fun v => (v <? 0)%float = false) l' ->
  compare_values (l ++ l') = compare_values l.
Proof.
  induction l' as [|v l' IH] using rev_ind; intros H.
  - now rewrite app_nil_r.
  - apply Forall_app in H. destruct H as [H Hv].
    rewrite app_assoc, compare_values_snoc, (IH H).
    inversion Hv as [|? ? Hv0 _]; subst.
    now rewrite (not_below_candidate l v Hv0).
Qed.

Lemma compare_values_app_not_below_witness :
  compare_values ([1.0; -2.0] ++ [0.0; 3.5; nan])%float
  = compare_values [1.0; -2.0]%float.
Proof.
  apply (compare_values_app_not_below [1.0; -2.0]%float [0.0; 3.5; nan]%float).
  repeat constructor.
Defined.

(** X9: values that are not below zero, put in front of the list, leave the
    value as it is and move the index of a found element by their number. *)
Theorem compare_values_not_below_app (l' l : list float) :
  Forall (fun v => (v <? 0)%float = false) l' ->
  compare_values (l' ++ l)
  = shift_index (List.length l') (compare_values l).
Proof.
  intros H.
  rewrite !compare_values_scan, scan_app, (scan_nothing_below l' 0 H).
  exact (scan_shift l 0 (List.length l') (Int 0, 0%nat)).
Qed.

Lemma compare_values_not_below_app_witness :
  compare_values ([0.0; 3.5; nan] ++ [1.0; -2.0])%float
  = shift_index 3 (compare_values [1.0; -2.0]%float).
Proof.
  apply (compare_values_not_below_app [0.0; 3.5; nan]%float [1.0; -2.0]%float).
  repeat constructor.
Defined.

(** X10: on a list that is not empty the index returned is an index of the
    list, also when nothing was found and the pair is [(0, 0)]. *)
Theorem compare_values_index_in_range (values : list float) :
  values <> [] ->
  (snd (compare_values values) < List.length values)%nat.
Proof.
  intros Hne.
  destruct (compare_values_inv values) as [[E _]|(f & _ & _ & Hi & _)].
  - rewrite E. destruct values; [congruence|]. cbn. lia.
  - apply nth_error_Some. now rewrite Hi.
Qed.

Lemma compare_values_index_in_range_witness :
  (snd (compare_values recorded_values) < List.length recorded_values)%nat.
Proof.
  apply (compare_values_index_in_range recorded_values). discriminate.
Defined.

(** X11: cells 7 and 8 on a list with no element below zero print
    [0e-21 J]: the int [0] that [compare_values] returns stays an int through
    the product and the rounding. *)
Theorem report_without_negative (values : list float) :
  Forall (fun v => (v <? 0)%float = false) values ->
  report values = Ok "0e-21 J"%string.
Proof.
  intros H. unfold report.
  rewrite compare_values_scan, (scan_nothing_below values 0 H).
  reflexivity.
Qed.

Lemma report_without_negative_witness :
  report [1.5653523415738785e-20; 0.0]%float = Ok "0e-21 J"%string.
Proof.
  apply (report_without_negative [1.5653523415738785e-20; 0.0]%float).
  repeat constructor.
Defined.

(** Cell 8 is [report] on the potentials of cell 5. *)
Example cell8_is_report : cell8 = (vs <- cell5 ;; report vs).
Proof. unfold cell8, cell7, report. now destruct cell5. Qed.
